(** * mimi: the Gemini session hook (examples/gemini_hook.py)

    A shallow embedding of the script: the Protocol Fetcher
    [get_memory_protocol], the Session Hook [configure_session_hook] and
    the body run when the script is started directly ([main]), together
    with the small part of Python they rely on: dictionaries with string keys, [str] formatting inside an
    f-string, [print], [subprocess.run] and [try]/[except] with class
    matching. *)

From Stdlib Require Import ZArith Ascii String.
From stdpp Require Import gmap strings list.

Local Open Scope Z_scope.

(** ** Python values stored in a configuration record *)

(** The values a configuration record holds in this development: [None],
    the two booleans and strings, the values whose [str] always succeeds
    and is fixed by the language.  Numbers and nested containers are left
    out: the text of a float depends on its binary representation, and
    CPython refuses to convert an [int] of more than 4300 digits
    ([ValueError]), so that formatting one can raise. *)
Inductive value :=
  | VNone
  | VBool (b : bool)
  | VStr (s : string).

(** The line feed character and the separator the hook inserts. *)
Definition LF : string := String (Ascii.ascii_of_nat 10) EmptyString.
Definition blank_line : string := LF +:+ LF.

(** [str(v)], which is also what [f"{v}"] produces for these types. *)
Definition py_str (v : value) : string :=
  match v with
  | VNone => "None"
  | VBool true => "True"
  | VBool false => "False"
  | VStr s => s
  end.

(** Truth value of a string in a condition: only [''] is false. *)
Definition truthy (s : string) : bool :=
  match s with
  | EmptyString => false
  | String _ _ => true
  end.

(** A configuration record: a [dict] with string keys. *)
Abbreviation dict := (gmap string value).

(** [d.get(key, default)] *)
Definition dict_get (d : dict) (key : string) (default : value) : value :=
  match d !! key with
  | Some v => v
  | None => default
  end.

(** ** Exceptions and their classes *)

(** The part of the exception hierarchy that matters to the two handlers of
    [get_memory_protocol], and [Derived] for any further class declared as
    a subclass of one already there. *)
Inductive pyclass :=
  | C_BaseException
  | C_Exception
  | C_KeyboardInterrupt
  | C_SystemExit
  | C_OSError
  | C_FileNotFoundError
  | C_PermissionError
  | C_ValueError
  | C_UnicodeError
  | C_UnicodeDecodeError
  | C_MemoryError
  | C_SubprocessError
  | C_CalledProcessError
  | C_TimeoutExpired
  | Derived (name : string) (parent : pyclass).

Global Instance pyclass_eq_dec : EqDecision pyclass.
Proof. solve_decision. Defined.

(** The classes a class inherits from, nearest first, itself included. *)
Fixpoint mro (c : pyclass) : list pyclass :=
  c ::
  match c with
  | C_BaseException => []
  | C_Exception | C_KeyboardInterrupt | C_SystemExit => [C_BaseException]
  | C_OSError | C_ValueError | C_MemoryError | C_SubprocessError =>
      [C_Exception; C_BaseException]
  | C_FileNotFoundError | C_PermissionError =>
      [C_OSError; C_Exception; C_BaseException]
  | C_UnicodeError => [C_ValueError; C_Exception; C_BaseException]
  | C_UnicodeDecodeError =>
      [C_UnicodeError; C_ValueError; C_Exception; C_BaseException]
  | C_CalledProcessError | C_TimeoutExpired =>
      [C_SubprocessError; C_Exception; C_BaseException]
  | Derived _ parent => mro parent
  end.

Definition issubclass (c d : pyclass) : bool := bool_decide (d ∈ mro c).

(** An exception object.  [CalledProcessError] keeps the attributes
    [subprocess.run] gives it; any other exception is its class and its
    message. *)
Inductive exn :=
  | CalledProcessError (returncode : Z) (cmd : list string)
                       (output stderr : string)
  | Raised (cls : pyclass) (msg : string).

Definition class_of (e : exn) : pyclass :=
  match e with
  | CalledProcessError _ _ _ _ => C_CalledProcessError
  | Raised cls _ => cls
  end.

Definition isinstance (e : exn) (c : pyclass) : bool :=
  issubclass (class_of e) c.

(** ** The world: child processes and the console *)

(** What one [subprocess.run(cmd, capture_output=True, text=True, ...)] call
    meets: the child runs to completion, with its exit status and its two
    streams as decoded text, or the call raises before any status is looked
    at (the executable is missing, permission is denied, the output cannot
    be decoded, ...). *)
Inductive child_behaviour :=
  | Exits (status : Z) (out err : string)
  | Fails (e : exn).

(** One line written by [print].  [Fmt prefix e] is [f"{prefix}{e}"]: the
    text of [str(e)] is not spelled out. *)
Inductive line :=
  | Lit (s : string)
  | Fmt (prefix : string) (e : exn).

Record world := World {
  children : nat -> child_behaviour;  (* what the n-th run call meets *)
  runs : list (list string);          (* argv of every run call so far *)
  console : list line                 (* standard output so far *)
}.

(** ** Computations that may raise *)

Inductive result (A : Type) :=
  | Ok (a : A)
  | Raise (e : exn).
Arguments Ok {A} a.
Arguments Raise {A} e.

Definition M (A : Type) : Type := world -> result A * world.

Global Instance M_ret : MRet M := fun A a w => (Ok a, w).

Global Instance M_bind : MBind M := fun A B f m w =>
  match m w with
  | (Ok a, w') => f a w'
  | (Raise e, w') => (Raise e, w')
  end.

(** [try: body / except c1 as e: h1 / except c2 as e: h2 ...]: the first
    clause whose class the exception is an instance of handles it; with no
    such clause the exception goes on. *)
Definition try_except {A} (body : M A)
    (handlers : list (pyclass * (exn -> M A))) : M A :=
  fun w =>
    match body w with
    | (Ok a, w') => (Ok a, w')
    | (Raise e, w') =>
        match List.find (fun h => isinstance e h.1) handlers with
        | Some h => h.2 e w'
        | None => (Raise e, w')
        end
    end.

(** [print(l)] *)
Definition print (l : line) : M unit :=
  fun w => (Ok tt, World (children w) (runs w) (console w ++ [l])).

(** [KeyError], below [LookupError] in the hierarchy. *)
Definition C_KeyError : pyclass :=
  Derived "KeyError" (Derived "LookupError" C_Exception).

(** [d[key]]: a missing key raises [KeyError(key)]. *)
Definition dict_getitem (d : dict) (key : string) : M value :=
  fun w =>
    match d !! key with
    | Some v => (Ok v, w)
    | None => (Raise (Raised C_KeyError key), w)
    end.

(** ** subprocess.run *)

Record CompletedProcess := {
  args : list string;
  returncode : Z;
  stdout : string;
  stderr : string
}.

(** [subprocess.run(cmd, capture_output=True, text=True, check=check)]:
    with [check], a non-zero exit status raises [CalledProcessError]. *)
Definition subprocess_run (cmd : list string) (check : bool)
    : M CompletedProcess :=
  fun w =>
    let w' := World (children w) (runs w ++ [cmd]) (console w) in
    match children w (length (runs w)) with
    | Fails e => (Raise e, w')
    | Exits status out err =>
        if check && negb (status =? 0)
        then (Raise (CalledProcessError status cmd out err), w')
        else (Ok {| args := cmd; returncode := status;
                    stdout := out; stderr := err |}, w')
    end.

(** ** os.path.join (POSIX) *)

Definition startswith_sep (s : string) : bool :=
  match s with
  | String c _ => bool_decide (c = "/"%char)
  | EmptyString => false
  end.

Fixpoint endswith_sep (s : string) : bool :=
  match s with
  | EmptyString => false
  | String c EmptyString => bool_decide (c = "/"%char)
  | String _ rest => endswith_sep rest
  end.

Definition os_path_join (a : string) (p : list string) : string :=
  fold_left (fun path b =>
    if startswith_sep b then b
    else if negb (truthy path) || endswith_sep path then path +:+ b
    else path +:+ "/" +:+ b) p a.

(** ** The script *)

Section gemini_hook.

(** [os.getcwd()] when the module is loaded. *)
Variable cwd : string.

(** Path to the mimi CLI *)
Definition MIMI_CLI_PATH : string := os_path_join cwd ["bin"; "mimi"].

(** Calls 'mimi instruction' to get the mandatory memory protocol. *)
Definition get_memory_protocol : M string :=
  try_except
    (let cmd := [MIMI_CLI_PATH; "instruction"] in
     result ← subprocess_run cmd true;
     mret (stdout result))
    [ (C_CalledProcessError, fun e =>
         print (Fmt "Error retrieving memory protocol: " e);;
         mret "");
      (C_Exception, fun e =>
         print (Fmt "Unexpected error: " e);;
         mret "") ].

(** Hook to be called when initializing a Google Gemini CLI session.
    Injects the memory protocol into the system instruction.  The record is
    updated in place and handed back: the result is the record after the
    call. *)
Definition configure_session_hook (session_config : dict) : M dict :=
  print (Lit " [Hook] Retrieving mimi-memory protocol...");;
  protocol ← get_memory_protocol;
  session_config ←
    (if truthy protocol then
       print (Lit " [Hook] Protocol retrieved. Injecting into system instruction.");;
       let current_instruction :=
         dict_get session_config "system_instruction" (VStr "") in
       mret (<["system_instruction" :=
                 VStr (py_str current_instruction +:+ blank_line +:+ protocol)]>
               session_config)
     else
       print (Lit " [Hook] Warning: Failed to retrieve protocol.");;
       mret session_config);
  mret session_config.

(** Simulation of the User's provided 'Gemini' session setup: what the
    script does when run directly.  [print(v)] writes [str(v)]. *)
Definition main : M unit :=
  (* Mock configuration object similar to what might be passed to
     create_session *)
  let gemini_config : dict :=
    {[ "model" := VStr "gemini-2.0-flash";
       "system_instruction" := VStr "You are a helpful AI assistant." ]} in
  print (Lit "--- Before Hook ---");;
  shown ← dict_getitem gemini_config "system_instruction";
  print (Lit (py_str shown));;
  (* Apply the hook *)
  gemini_config ← configure_session_hook gemini_config;
  print (Lit (LF +:+ "--- After Hook (Ready for Session) ---"));;
  shown ← dict_getitem gemini_config "system_instruction";
  print (Lit (py_str shown)).

End gemini_hook.

(** ** Names used in the statements *)

Definition instruction_key : string := "system_instruction".

Definition banner_notice : line :=
  Lit " [Hook] Retrieving mimi-memory protocol...".
Definition success_notice : line :=
  Lit " [Hook] Protocol retrieved. Injecting into system instruction.".
Definition warning_notice : line :=
  Lit " [Hook] Warning: Failed to retrieve protocol.".

(** The command line of the child. *)
Definition mimi_argv (cwd : string) : list string :=
  [MIMI_CLI_PATH cwd; "instruction"].

(** The child ends in failure: a non-zero exit status, or an execution
    error, that is an exception deriving from [Exception] (a missing
    executable is [FileNotFoundError], a refused one [PermissionError],
    undecodable output [UnicodeDecodeError]).  [KeyboardInterrupt] and
    [SystemExit] derive from [BaseException] only; they come from the
    interpreter and its user, not from the child. *)
Definition process_failure (b : child_behaviour) : bool :=
  match b with
  | Exits status _ _ => negb (status =? 0)
  | Fails e => isinstance e C_Exception
  end.

(** Anything the external process can do: exit, with any status, or fail
    with an execution error. *)
Definition process_behaviour (b : child_behaviour) : bool :=
  match b with
  | Exits _ _ _ => true
  | Fails e => isinstance e C_Exception
  end.

(** The behaviour the next [subprocess.run] call meets. *)
Definition next_child (w : world) : child_behaviour :=
  children w (length (runs w)).

(** The ASCII characters [str.isspace] accepts. *)
Definition is_space (c : ascii) : bool :=
  let n := nat_of_ascii c in
  ((9 <=? n)%nat && (n <=? 13)%nat) || ((28 <=? n)%nat && (n <=? 32)%nat).

Fixpoint whitespace_only (s : string) : bool :=
  match s with
  | EmptyString => true
  | String c rest => is_space c && whitespace_only rest
  end.

(** The sample configuration record of the script's [__main__] block. *)
Definition gemini_config : dict :=
  {[ "model" := VStr "gemini-2.0-flash";
     instruction_key := VStr "You are a helpful AI assistant." ]}.

(** The lines the script prints around its call of the hook, and the
    instruction of its sample record. *)
Definition before_banner : line := Lit "--- Before Hook ---".
Definition after_banner : line :=
  Lit (LF +:+ "--- After Hook (Ready for Session) ---").
Definition sample_instruction : string := "You are a helpful AI assistant.".

(** A world, before anything ran, whose children behave as listed, one
    after the other, and as [then_on] once the list is used up. *)
Definition scripted_world (bs : list child_behaviour)
    (then_on : child_behaviour) : world :=
  World (fun n => nth n bs then_on) [] [].

(** A world in which every child behaves as [b], before anything ran. *)
Definition fresh_world (b : child_behaviour) : world :=
  World (fun _ => b) [] [].

(** * Properties *)

(** ** The Python fragment on small inputs *)

Example py_str_samples :
  map py_str [VNone; VBool true; VBool false; VStr "as is"] =
  ["None"; "True"; "False"; "as is"].
Proof. reflexivity. Qed.

Example MIMI_CLI_PATH_samples :
  map MIMI_CLI_PATH ["/srv/app"; "/"; "/srv/app/"] =
  ["/srv/app/bin/mimi"; "/bin/mimi"; "/srv/app/bin/mimi"].
Proof. reflexivity. Qed.

Example issubclass_samples :
  map (fun c => (issubclass c C_CalledProcessError, issubclass c C_Exception))
      [C_CalledProcessError; C_FileNotFoundError; C_UnicodeDecodeError;
       Derived "MimiError" C_OSError; C_KeyboardInterrupt; C_SystemExit] =
  [(true, true); (false, true); (false, true);
   (false, true); (false, false); (false, false)].
Proof. reflexivity. Qed.

(** ** The try/except of the Fetcher *)

Lemma isinstance_CalledProcessError_Exception e :
  isinstance e C_CalledProcessError = true -> isinstance e C_Exception = true.
Proof.
  unfold isinstance, issubclass. rewrite !bool_decide_eq_true.
  generalize (class_of e) as c. clear e.
  induction c; cbn; rewrite ?elem_of_cons, ?elem_of_nil; try tauto.
  all: intros H; decompose [or] H; try discriminate; tauto.
Qed.

(** What a call of the Fetcher does, by the behaviour of the child. *)
Lemma get_memory_protocol_cases cwd w :
  get_memory_protocol cwd w =
  let argv := mimi_argv cwd in
  let say l := World (children w) (runs w ++ [argv]) (console w ++ l) in
  match next_child w with
  | Exits status out err =>
      if status =? 0 then (Ok out, say [])
      else (Ok "", say [Fmt "Error retrieving memory protocol: "
                            (CalledProcessError status argv out err)])
  | Fails e =>
      if isinstance e C_CalledProcessError
      then (Ok "", say [Fmt "Error retrieving memory protocol: " e])
      else if isinstance e C_Exception
      then (Ok "", say [Fmt "Unexpected error: " e])
      else (Raise e, say [])
  end.
Proof.
  unfold get_memory_protocol, try_except, subprocess_run, next_child, mimi_argv.
  unfold mbind, M_bind, mret, M_ret. rewrite app_nil_r.
  destruct (children w (length (runs w))) as [status out err|e]; cbn [andb].
  - destruct (status =? 0); cbn; reflexivity.
  - cbn [List.find fst snd].
    destruct (isinstance e C_CalledProcessError); [reflexivity|].
    destruct (isinstance e C_Exception); reflexivity.
Qed.

(** The Fetcher looks at the child and at nothing else: what is already on
    the console does not change what it returns. *)
Lemma get_memory_protocol_console cwd ch rs c c' :
  (get_memory_protocol cwd (World ch rs c)).1 =
  (get_memory_protocol cwd (World ch rs c')).1.
Proof.
  rewrite !get_memory_protocol_cases. unfold next_child. cbn.
  destruct (ch (length rs)) as [status out err|e].
  - destruct (status =? 0); reflexivity.
  - destruct (isinstance e C_CalledProcessError); [reflexivity|].
    destruct (isinstance e C_Exception); reflexivity.
Qed.

(** Every call of the Fetcher starts exactly one child, with the fixed
    command line, whatever the child then does. *)
Lemma get_memory_protocol_runs cwd w :
  runs (get_memory_protocol cwd w).2 = runs w ++ [mimi_argv cwd] /\
  children (get_memory_protocol cwd w).2 = children w.
Proof.
  rewrite get_memory_protocol_cases. cbn.
  destruct (next_child w) as [status out err|e].
  - destruct (status =? 0); split; reflexivity.
  - destruct (isinstance e C_CalledProcessError); [split; reflexivity|].
    destruct (isinstance e C_Exception); split; reflexivity.
Qed.

(** A text that is not empty comes from a child that exited with status
    zero and wrote that text; the Fetcher then prints nothing. *)
Lemma get_memory_protocol_text cwd w T :
  (get_memory_protocol cwd w).1 = Ok T -> T <> "" ->
  get_memory_protocol cwd w =
    (Ok T, World (children w) (runs w ++ [mimi_argv cwd]) (console w)).
Proof.
  rewrite get_memory_protocol_cases. cbn.
  destruct (next_child w) as [status out err|e].
  - destruct (status =? 0); cbn; intros [= <-] HT;
      [by rewrite app_nil_r | done].
  - destruct (isinstance e C_CalledProcessError); cbn; [by intros [= <-]|].
    destruct (isinstance e C_Exception); cbn; [by intros [= <-]|done].
Qed.

(** ** The Session Hook, by what the Fetcher returned *)

(** The hook, once the Fetcher has run after the banner. *)
Lemma configure_session_hook_unfold cwd cfg w :
  configure_session_hook cwd cfg w =
  match get_memory_protocol cwd
          (World (children w) (runs w) (console w ++ [banner_notice])) with
  | (Ok protocol, w1) =>
      if truthy protocol
      then (Ok (<[instruction_key :=
                   VStr (py_str (dict_get cfg instruction_key (VStr ""))
                         +:+ blank_line +:+ protocol)]> cfg),
            World (children w1) (runs w1) (console w1 ++ [success_notice]))
      else (Ok cfg,
            World (children w1) (runs w1) (console w1 ++ [warning_notice]))
  | (Raise e, w1) => (Raise e, w1)
  end.
Proof.
  unfold configure_session_hook, mbind, M_bind, mret, M_ret, print.
  destruct (get_memory_protocol cwd _) as [[protocol|e] w1]; [|reflexivity].
  destruct (truthy protocol); reflexivity.
Qed.

Lemma truthy_nonempty s : s <> "" -> truthy s = true.
Proof. by destruct s. Qed.

(** The hook on a text that is not empty. *)
Lemma configure_session_hook_text cwd cfg w T :
  (get_memory_protocol cwd w).1 = Ok T -> T <> "" ->
  configure_session_hook cwd cfg w =
    (Ok (<[instruction_key :=
             VStr (py_str (dict_get cfg instruction_key (VStr ""))
                   +:+ blank_line +:+ T)]> cfg),
     World (children w) (runs w ++ [mimi_argv cwd])
           (console w ++ [banner_notice; success_notice])).
Proof.
  intros Hfetch HT. rewrite configure_session_hook_unfold.
  destruct w as [ch rs c]. cbn [children runs console].
  rewrite (get_memory_protocol_text cwd _ T); [|by rewrite
    (get_memory_protocol_console cwd ch rs _ c)|done].
  rewrite truthy_nonempty by done. cbn. by rewrite <- app_assoc.
Qed.

(** The hook on the empty text. *)
Lemma configure_session_hook_empty cwd cfg w :
  (get_memory_protocol cwd w).1 = Ok "" ->
  exists mid,
    configure_session_hook cwd cfg w =
      (Ok cfg,
       World (children w) (runs w ++ [mimi_argv cwd])
             (console w ++ banner_notice :: mid ++ [warning_notice])).
Proof.
  intros Hfetch. rewrite configure_session_hook_unfold.
  destruct w as [ch rs c]. cbn [children runs console].
  rewrite (get_memory_protocol_console cwd ch rs c (c ++ [banner_notice]))
    in Hfetch.
  revert Hfetch. rewrite get_memory_protocol_cases. unfold next_child. cbn.
  destruct (ch (length rs)) as [status out err|e].
  - destruct (status =? 0); cbn.
    + intros [= ->]. exists []. cbn. by rewrite app_nil_r, <- app_assoc.
    + intros _. eexists [_]. cbn. by rewrite <- !app_assoc.
  - destruct (isinstance e C_CalledProcessError); cbn.
    { intros _. eexists [_]. cbn. by rewrite <- !app_assoc. }
    destruct (isinstance e C_Exception); cbn; [|done].
    intros _. eexists [_]. cbn. by rewrite <- !app_assoc.
Qed.

(** A child that exits with status zero makes the Fetcher return its
    output. *)
Lemma get_memory_protocol_exit_zero cwd w out err :
  next_child w = Exits 0 out err ->
  get_memory_protocol cwd w =
    (Ok out, World (children w) (runs w ++ [mimi_argv cwd]) (console w)).
Proof.
  intros Hchild. rewrite get_memory_protocol_cases, Hchild. cbn.
  by rewrite app_nil_r.
Qed.

(** Whatever the external process does, the Fetcher returns a string. *)
Lemma get_memory_protocol_returns cwd w :
  process_behaviour (next_child w) = true ->
  exists T, (get_memory_protocol cwd w).1 = Ok T.
Proof.
  rewrite get_memory_protocol_cases. cbn.
  destruct (next_child w) as [status out err|e]; cbn.
  - intros _. destruct (status =? 0); eauto.
  - intros ->. destruct (isinstance e C_CalledProcessError); eauto.
Qed.

(** ** The claims *)

(** C1: for a configuration record whose 'system_instruction' field holds a
    non-empty string [original], and a non-empty protocol text [T] returned
    by the Fetcher, the hook returns a record whose 'system_instruction'
    field is [original], a blank line ("\n\n"), then [T]. *)
Theorem hook_appends_to_existing_instruction cwd (cfg : dict) w original T :
  cfg !! instruction_key = Some (VStr original) ->
  original <> "" ->
  T <> "" ->
  (get_memory_protocol cwd w).1 = Ok T ->
  exists (cfg' : dict) w',
    configure_session_hook cwd cfg w = (Ok cfg', w') /\
    cfg' !! instruction_key = Some (VStr (original +:+ blank_line +:+ T)).
Proof.
  intros Hcur _ HT Hfetch.
  rewrite (configure_session_hook_text cwd cfg w T Hfetch HT).
  do 2 eexists. split; [reflexivity|].
  rewrite lookup_insert_eq. unfold dict_get. by rewrite Hcur.
Qed.

(** C2, as amended: for a configuration record with no 'system_instruction'
    field and a NON-EMPTY protocol text [T] returned by the Fetcher, the
    hook returns a record whose 'system_instruction' field is a blank line
    ("\n\n") followed by [T]. *)
Theorem hook_creates_missing_instruction cwd (cfg : dict) w T :
  cfg !! instruction_key = None ->
  T <> "" ->
  (get_memory_protocol cwd w).1 = Ok T ->
  exists (cfg' : dict) w',
    configure_session_hook cwd cfg w = (Ok cfg', w') /\
    cfg' !! instruction_key = Some (VStr (blank_line +:+ T)).
Proof.
  intros Hcur HT Hfetch.
  rewrite (configure_session_hook_text cwd cfg w T Hfetch HT).
  do 2 eexists. split; [reflexivity|].
  rewrite lookup_insert_eq. unfold dict_get. by rewrite Hcur.
Qed.

(** C3: if the Fetcher returns the empty string, the hook returns the
    configuration record it was given, equal by value (nothing added,
    removed or modified), and prints the warning notice. *)
Theorem hook_empty_fetch_leaves_config cwd (cfg : dict) w :
  (get_memory_protocol cwd w).1 = Ok "" ->
  exists w' mid,
    configure_session_hook cwd cfg w = (Ok cfg, w') /\
    console w' = console w ++ banner_notice :: mid ++ [warning_notice].
Proof.
  intros Hfetch.
  destruct (configure_session_hook_empty cwd cfg w Hfetch) as [mid ->].
  by do 2 eexists.
Qed.

(** C4: when the external process fails, by a non-zero exit status or by
    an execution error such as a missing executable, the Fetcher catches
    it: nothing is raised, the result is exactly the empty string, and one
    line naming the error is printed. *)
Theorem fetcher_absorbs_failure cwd w :
  process_failure (next_child w) = true ->
  exists prefix e,
    get_memory_protocol cwd w =
      (Ok "", World (children w) (runs w ++ [mimi_argv cwd])
                    (console w ++ [Fmt prefix e])).
Proof.
  rewrite get_memory_protocol_cases. cbn.
  destruct (next_child w) as [status out err|e]; cbn.
  - destruct (status =? 0); [done|]. intros _. by do 2 eexists.
  - intros ->. destruct (isinstance e C_CalledProcessError); by do 2 eexists.
Qed.

(** C5: when the external process exits with status zero, the Fetcher
    returns its captured standard output as it is, without trimming or any
    other change, and prints nothing. *)
Theorem fetcher_returns_stdout cwd w out err :
  next_child w = Exits 0 out err ->
  get_memory_protocol cwd w =
    (Ok out, World (children w) (runs w ++ [mimi_argv cwd]) (console w)).
Proof. apply get_memory_protocol_exit_zero. Qed.

(** C6: whatever the Fetcher returns, every key of the record other than
    'system_instruction' maps to the same value (or stays absent) in the
    record the hook returns. *)
Theorem hook_preserves_other_keys cwd (cfg : dict) w T :
  (get_memory_protocol cwd w).1 = Ok T ->
  exists (cfg' : dict) w',
    configure_session_hook cwd cfg w = (Ok cfg', w') /\
    forall key, key <> instruction_key -> cfg' !! key = cfg !! key.
Proof.
  intros Hfetch. destruct (decide (T = "")) as [->|HT].
  - destruct (configure_session_hook_empty cwd cfg w Hfetch) as [mid ->].
    by do 2 eexists.
  - rewrite (configure_session_hook_text cwd cfg w T Hfetch HT).
    do 2 eexists. split; [reflexivity|].
    intros key Hkey. by rewrite lookup_insert_ne.
Qed.

(** C7: with a stub executable that writes "Remember: be concise." and exits
    with status 0, the hook turns
    {"system_instruction": "You are a helpful AI assistant."} into exactly
    {"system_instruction":
       "You are a helpful AI assistant.\n\nRemember: be concise."}. *)
Theorem hook_end_to_end_stub cwd w err :
  next_child w = Exits 0 "Remember: be concise." err ->
  exists w',
    configure_session_hook cwd
      {[ instruction_key := VStr "You are a helpful AI assistant." ]} w =
    (Ok {[ instruction_key :=
             VStr ("You are a helpful AI assistant." +:+ LF +:+ LF +:+
                   "Remember: be concise.") ]}, w').
Proof.
  intros Hchild.
  rewrite (configure_session_hook_text cwd _ w "Remember: be concise.");
    [|by rewrite (get_memory_protocol_exit_zero cwd w _ err Hchild)|done].
  eexists. reflexivity.
Qed.

(** C8: for every configuration record and every behaviour of the external
    process, the hook calls the Fetcher exactly once (exactly one child is
    started, with the fixed command line), raises nothing, and returns a
    configuration record. *)
Theorem hook_total_single_fetch cwd (cfg : dict) w :
  process_behaviour (next_child w) = true ->
  exists (cfg' : dict) w',
    configure_session_hook cwd cfg w = (Ok cfg', w') /\
    runs w' = runs w ++ [mimi_argv cwd].
Proof.
  intros Hchild.
  destruct (get_memory_protocol_returns cwd w Hchild) as [T Hfetch].
  destruct (decide (T = "")) as [->|HT].
  - destruct (configure_session_hook_empty cwd cfg w Hfetch) as [mid ->].
    by do 2 eexists.
  - rewrite (configure_session_hook_text cwd cfg w T Hfetch HT).
    by do 2 eexists.
Qed.

(** C9: the hook tests the fetched text for being empty and for nothing
    else.  Every text that is not empty, so every text made of white space
    only, a single newline say, is a successful fetch: it is appended to the
    instruction field after a blank line, and the success notice is printed,
    not the warning.  Only the exactly empty string is the failure sentinel:
    then, and only then, the record comes back unchanged and the warning is
    printed. *)
Theorem hook_whitespace_is_success cwd (cfg : dict) w T :
  (get_memory_protocol cwd w).1 = Ok T ->
  exists (cfg' : dict) w',
    configure_session_hook cwd cfg w = (Ok cfg', w') /\
    (T <> "" ->
       cfg' = <[instruction_key :=
                  VStr (py_str (dict_get cfg instruction_key (VStr ""))
                        +:+ blank_line +:+ T)]> cfg /\
       console w' = console w ++ [banner_notice; success_notice]) /\
    (T = "" ->
       cfg' = cfg /\
       exists mid,
         console w' = console w ++ banner_notice :: mid ++ [warning_notice]).
Proof.
  intros Hfetch. destruct (decide (T = "")) as [->|HT].
  - destruct (configure_session_hook_empty cwd cfg w Hfetch) as [mid ->].
    do 2 eexists. split; [reflexivity|]. split; [done|].
    intros _. split; [reflexivity|]. by exists mid.
  - rewrite (configure_session_hook_text cwd cfg w T Hfetch HT).
    do 2 eexists. split; [reflexivity|]. split; [|done].
    intros _. by split.
Qed.

(** C10: the hook is deterministic given the fetched text: two runs on the
    same configuration record in which the Fetcher returns the same text
    return equal records, whatever else differs between the two worlds. *)
Theorem hook_deterministic cwd1 cwd2 (cfg : dict) w1 w2 T :
  (get_memory_protocol cwd1 w1).1 = Ok T ->
  (get_memory_protocol cwd2 w2).1 = Ok T ->
  exists cfg' : dict,
    (configure_session_hook cwd1 cfg w1).1 = Ok cfg' /\
    (configure_session_hook cwd2 cfg w2).1 = Ok cfg'.
Proof.
  intros Hfetch1 Hfetch2. destruct (decide (T = "")) as [->|HT].
  - destruct (configure_session_hook_empty cwd1 cfg w1 Hfetch1) as [mid1 ->].
    destruct (configure_session_hook_empty cwd2 cfg w2 Hfetch2) as [mid2 ->].
    by eexists.
  - rewrite (configure_session_hook_text cwd1 cfg w1 T Hfetch1 HT).
    rewrite (configure_session_hook_text cwd2 cfg w2 T Hfetch2 HT).
    by eexists.
Qed.

(** ** The claims at concrete inputs *)

Lemma hook_appends_to_existing_instruction_witness :
  exists (cfg' : dict) w',
    configure_session_hook "/srv/app" gemini_config
      (fresh_world (Exits 0 "Store what you learn." "")) = (Ok cfg', w') /\
    cfg' !! instruction_key =
      Some (VStr ("You are a helpful AI assistant." +:+ blank_line +:+
                  "Store what you learn.")).
Proof.
  apply (hook_appends_to_existing_instruction "/srv/app" gemini_config
           (fresh_world (Exits 0 "Store what you learn." ""))
           "You are a helpful AI assistant." "Store what you learn.");
    [vm_compute; reflexivity | discriminate | discriminate | reflexivity].
Defined.

Lemma hook_creates_missing_instruction_witness :
  exists (cfg' : dict) w',
    configure_session_hook "/" {[ "model" := VStr "gemini-2.0-flash" ]}
      (fresh_world (Exits 0 "Store what you learn." "")) = (Ok cfg', w') /\
    cfg' !! instruction_key =
      Some (VStr (blank_line +:+ "Store what you learn.")).
Proof.
  apply (hook_creates_missing_instruction "/"
           {[ "model" := VStr "gemini-2.0-flash" ]}
           (fresh_world (Exits 0 "Store what you learn." ""))
           "Store what you learn.");
    [vm_compute; reflexivity | discriminate | reflexivity].
Defined.

(** C2 as stated, at the empty text: the child exits with status 1, the
    Fetcher returns the empty string, and the record comes back without a
    'system_instruction' field instead of one holding "\n\n". *)
Lemma hook_missing_instruction_empty_fetch :
  let cfg : dict := {[ "model" := VStr "gemini-2.0-flash" ]} in
  let w := fresh_world (Exits 1 "" "mimi: no protocol") in
  ~ (cfg !! instruction_key = None ->
     (get_memory_protocol "/" w).1 = Ok "" ->
     exists (cfg' : dict) w',
       configure_session_hook "/" cfg w = (Ok cfg', w') /\
       cfg' !! instruction_key = Some (VStr (blank_line +:+ ""))).
Proof.
  intros cfg w Hclaim.
  destruct Hclaim as (cfg' & w' & Hrun & Hlook);
    [vm_compute; reflexivity | reflexivity |].
  apply (f_equal fst) in Hrun. cbn [fst] in Hrun.
  assert (Hcfg : Ok cfg = Ok cfg') by (rewrite <- Hrun; reflexivity).
  injection Hcfg as <-. vm_compute in Hlook. discriminate.
Qed.

Lemma hook_empty_fetch_leaves_config_witness :
  exists w' mid,
    configure_session_hook "/srv/app" gemini_config
      (fresh_world (Exits 1 "" "mimi: no protocol")) =
      (Ok gemini_config, w') /\
    console w' = [] ++ banner_notice :: mid ++ [warning_notice].
Proof.
  apply (hook_empty_fetch_leaves_config "/srv/app" gemini_config
           (fresh_world (Exits 1 "" "mimi: no protocol"))).
  reflexivity.
Defined.

Lemma fetcher_absorbs_failure_witness :
  exists prefix e,
    get_memory_protocol "/srv/app"
      (fresh_world (Fails (Raised C_FileNotFoundError
                             "No such file or directory"))) =
      (Ok "", World (fun _ => Fails (Raised C_FileNotFoundError
                                       "No such file or directory"))
                    ([] ++ [mimi_argv "/srv/app"])
                    ([] ++ [Fmt prefix e])).
Proof.
  apply (fetcher_absorbs_failure "/srv/app"
           (fresh_world (Fails (Raised C_FileNotFoundError
                                  "No such file or directory")))).
  vm_compute. reflexivity.
Defined.

Lemma fetcher_returns_stdout_witness :
  get_memory_protocol "/srv/app"
    (fresh_world (Exits 0 ("  padded " +:+ LF) "")) =
  (Ok ("  padded " +:+ LF),
   World (fun _ => Exits 0 ("  padded " +:+ LF) "")
         ([] ++ [mimi_argv "/srv/app"]) []).
Proof.
  apply (fetcher_returns_stdout "/srv/app"
           (fresh_world (Exits 0 ("  padded " +:+ LF) ""))
           ("  padded " +:+ LF) "").
  reflexivity.
Defined.

Lemma hook_preserves_other_keys_witness :
  exists (cfg' : dict) w',
    configure_session_hook "/srv/app" gemini_config
      (fresh_world (Exits 0 "Store what you learn." "")) = (Ok cfg', w') /\
    forall key, key <> instruction_key ->
      cfg' !! key = gemini_config !! key.
Proof.
  apply (hook_preserves_other_keys "/srv/app" gemini_config
           (fresh_world (Exits 0 "Store what you learn." ""))
           "Store what you learn.").
  reflexivity.
Defined.

Lemma hook_end_to_end_stub_witness :
  exists w',
    configure_session_hook "/srv/app"
      {[ instruction_key := VStr "You are a helpful AI assistant." ]}
      (fresh_world (Exits 0 "Remember: be concise." "")) =
    (Ok {[ instruction_key :=
             VStr ("You are a helpful AI assistant." +:+ LF +:+ LF +:+
                   "Remember: be concise.") ]}, w').
Proof.
  apply (hook_end_to_end_stub "/srv/app"
           (fresh_world (Exits 0 "Remember: be concise." "")) "").
  reflexivity.
Defined.

Lemma hook_total_single_fetch_witness :
  exists (cfg' : dict) w',
    configure_session_hook "/srv/app" gemini_config
      (fresh_world (Fails (Raised C_PermissionError "Permission denied"))) =
      (Ok cfg', w') /\
    runs w' = [] ++ [mimi_argv "/srv/app"].
Proof.
  apply (hook_total_single_fetch "/srv/app" gemini_config
           (fresh_world (Fails (Raised C_PermissionError
                                  "Permission denied")))).
  vm_compute. reflexivity.
Defined.

Lemma hook_whitespace_is_success_witness :
  whitespace_only LF = true /\
  exists (cfg' : dict) w',
    configure_session_hook "/srv/app" gemini_config
      (fresh_world (Exits 0 LF "")) = (Ok cfg', w') /\
    (LF <> "" ->
       cfg' = {[ "model" := VStr "gemini-2.0-flash";
                 instruction_key :=
                   VStr ("You are a helpful AI assistant."
                         +:+ LF +:+ LF +:+ LF) ]} /\
       console w' = [banner_notice; success_notice]) /\
    (LF = "" ->
       cfg' = gemini_config /\
       exists mid, console w' = banner_notice :: mid ++ [warning_notice]).
Proof.
  split; [reflexivity|].
  exact (hook_whitespace_is_success "/srv/app" gemini_config
           (fresh_world (Exits 0 LF "")) LF eq_refl).
Defined.

Lemma hook_deterministic_witness :
  exists cfg' : dict,
    (configure_session_hook "/srv/app" gemini_config
       (fresh_world (Exits 0 "Store what you learn." ""))).1 = Ok cfg' /\
    (configure_session_hook "/tmp" gemini_config
       (World (fun _ => Exits 0 "Store what you learn." "warning: slow")
              [["/bin/true"]] [Lit "earlier output"])).1 = Ok cfg'.
Proof.
  apply (hook_deterministic "/srv/app" "/tmp" gemini_config
           (fresh_world (Exits 0 "Store what you learn." ""))
           (World (fun _ => Exits 0 "Store what you learn." "warning: slow")
                  [["/bin/true"]] [Lit "earlier output"])
           "Store what you learn."); reflexivity.
Defined.

(** ** Two remarks on the edges of the claims *)

(** The Fetcher does not trim: a stub that ends its line with a newline
    leaves that newline at the end of the instruction. *)
Example hook_keeps_trailing_newline :
  (configure_session_hook "/srv/app"
     {[ instruction_key := VStr "You are a helpful AI assistant." ]}
     (fresh_world (Exits 0 ("Remember: be concise." +:+ LF) ""))).1 =
  Ok {[ instruction_key :=
          VStr ("You are a helpful AI assistant." +:+ LF +:+ LF +:+
                "Remember: be concise." +:+ LF) ]}.
Proof. reflexivity. Qed.

(** [except Exception] does not catch what derives from [BaseException]
    only: an interrupt of the interpreter while the child runs goes through
    the Fetcher and the hook. *)
Example interrupt_is_not_absorbed :
  (configure_session_hook "/srv/app" gemini_config
     (fresh_world (Fails (Raised C_KeyboardInterrupt "")))).1 =
  Raise (Raised C_KeyboardInterrupt "").
Proof. reflexivity. Qed.

(** * Beyond the claims *)

(** ** Strings and paths *)

Lemma string_app_cons x (a b : string) :
  String x a +:+ b = String x (a +:+ b).
Proof. reflexivity. Qed.

Lemma string_app_assoc (a b c : string) : (a +:+ b) +:+ c = a +:+ b +:+ c.
Proof.
  induction a as [|x a IH]; [reflexivity|].
  by rewrite !string_app_cons, IH.
Qed.

Lemma truthy_app_r (a b : string) : truthy b = true -> truthy (a +:+ b) = true.
Proof. destruct a; [done | reflexivity]. Qed.

(** What follows a text that does not end in "/" and is not empty decides
    whether the whole ends in "/". *)
Lemma endswith_sep_app (a b : string) :
  b <> "" -> endswith_sep (a +:+ b) = endswith_sep b.
Proof.
  intros Hb. induction a as [|x a IH]; [reflexivity|].
  rewrite string_app_cons. cbn [endswith_sep]. rewrite IH.
  destruct (a +:+ b) eqn:Happ; [|reflexivity].
  destruct a; [done | discriminate].
Qed.

(** X1: the path of the mimi CLI is the working directory followed by
    "bin/mimi", with one "/" put between them unless the directory is empty
    or already ends in "/". *)
Theorem MIMI_CLI_PATH_shape cwd :
  MIMI_CLI_PATH cwd =
    cwd +:+ (if negb (truthy cwd) || endswith_sep cwd then "" else "/")
        +:+ "bin/mimi".
Proof.
  unfold MIMI_CLI_PATH, os_path_join. cbn [fold_left startswith_sep].
  rewrite !bool_decide_eq_false_2 by discriminate.
  destruct (negb (truthy cwd) || endswith_sep cwd) eqn:Hcwd.
  - rewrite (truthy_app_r cwd "bin"), endswith_sep_app by done. cbn.
    by rewrite !string_app_assoc.
  - rewrite (truthy_app_r cwd ("/" +:+ "bin")), endswith_sep_app by done. cbn.
    by rewrite !string_app_assoc.
Qed.

(** ** The Fetcher *)

(** X2: the Fetcher never retries: whatever the child does, and even when an
    exception passes through, one call makes exactly one [subprocess.run]
    call, with the command line [MIMI_CLI_PATH, 'instruction'], and prints
    at most one line. *)
Theorem fetcher_runs_once cwd w :
  runs (get_memory_protocol cwd w).2 =
    runs w ++ [[MIMI_CLI_PATH cwd; "instruction"]] /\
  exists printed,
    console (get_memory_protocol cwd w).2 = console w ++ printed /\
    (length printed <= 1)%nat.
Proof.
  rewrite get_memory_protocol_cases. cbn.
  destruct (next_child w) as [status out err|e].
  - destruct (status =? 0); (split; [reflexivity|]); eexists;
      (split; [reflexivity | cbn; lia]).
  - destruct (isinstance e C_CalledProcessError);
      [|destruct (isinstance e C_Exception)];
      (split; [reflexivity|]); eexists; (split; [reflexivity | cbn; lia]).
Qed.

(** X3: a non-zero exit status is reported by the first handler: the
    Fetcher prints "Error retrieving memory protocol: " followed by the
    [CalledProcessError] that carries the status, the command line and both
    streams, and whatever the child wrote on its standard output is dropped:
    the result is the empty string. *)
Theorem fetcher_reports_exit_status cwd w status out err :
  next_child w = Exits status out err ->
  status <> 0 ->
  get_memory_protocol cwd w =
    (Ok "",
     World (children w) (runs w ++ [mimi_argv cwd])
           (console w ++
            [Fmt "Error retrieving memory protocol: "
                 (CalledProcessError status (mimi_argv cwd) out err)])).
Proof.
  intros Hchild Hstatus. rewrite get_memory_protocol_cases, Hchild. cbn.
  by rewrite (proj2 (Z.eqb_neq status 0) Hstatus).
Qed.

(** X4: an execution error that is not a [CalledProcessError] (a missing
    executable, a refused permission, ...) is reported by the second
    handler, as "Unexpected error: " followed by the error, and the result
    is the empty string. *)
Theorem fetcher_reports_unexpected_error cwd w e :
  next_child w = Fails e ->
  isinstance e C_CalledProcessError = false ->
  isinstance e C_Exception = true ->
  get_memory_protocol cwd w =
    (Ok "",
     World (children w) (runs w ++ [mimi_argv cwd])
           (console w ++ [Fmt "Unexpected error: " e])).
Proof.
  intros Hchild Hcpe Hexc.
  by rewrite get_memory_protocol_cases, Hchild; cbn; rewrite Hcpe, Hexc.
Qed.

(** ** The Session Hook *)

(** X5: an exception that does not derive from [Exception] (an interrupt)
    is caught by neither handler and by nothing in the hook: the hook raises
    it, having printed its banner only, and no record is returned. *)
Theorem hook_lets_base_exception_through cwd (cfg : dict) w e :
  next_child w = Fails e ->
  isinstance e C_Exception = false ->
  configure_session_hook cwd cfg w =
    (Raise e,
     World (children w) (runs w ++ [mimi_argv cwd])
           (console w ++ [banner_notice])).
Proof.
  intros Hchild Hexc. rewrite configure_session_hook_unfold.
  rewrite get_memory_protocol_cases. unfold next_child in *. cbn.
  rewrite Hchild, Hexc.
  destruct (isinstance e C_CalledProcessError) eqn:Hcpe.
  - apply isinstance_CalledProcessError_Exception in Hcpe. congruence.
  - by rewrite app_nil_r.
Qed.

(** X6: a child that exits with status zero and writes nothing is taken for
    a failure: the hook prints the warning straight after the banner (no
    error line comes from the Fetcher) and returns the record unchanged. *)
Theorem hook_empty_output_is_failure cwd (cfg : dict) w err :
  next_child w = Exits 0 "" err ->
  configure_session_hook cwd cfg w =
    (Ok cfg,
     World (children w) (runs w ++ [mimi_argv cwd])
           (console w ++ [banner_notice; warning_notice])).
Proof.
  intros Hchild. rewrite configure_session_hook_unfold.
  rewrite (get_memory_protocol_exit_zero cwd _ "" err) by exact Hchild.
  cbn. by rewrite <- app_assoc.
Qed.

(** The hook on a child that exits with status zero and wrote a text. *)
Lemma configure_session_hook_exit_zero cwd (cfg : dict) w T err :
  next_child w = Exits 0 T err -> T <> "" ->
  configure_session_hook cwd cfg w =
    (Ok (<[instruction_key :=
             VStr (py_str (dict_get cfg instruction_key (VStr ""))
                   +:+ blank_line +:+ T)]> cfg),
     World (children w) (runs w ++ [mimi_argv cwd])
           (console w ++ [banner_notice; success_notice])).
Proof.
  intros Hchild HT. apply configure_session_hook_text; [|done].
  by rewrite (get_memory_protocol_exit_zero cwd w T err Hchild).
Qed.

(** The hook on a child that fails. *)
Lemma configure_session_hook_failure cwd (cfg : dict) w :
  process_failure (next_child w) = true ->
  exists prefix e,
    configure_session_hook cwd cfg w =
      (Ok cfg,
       World (children w) (runs w ++ [mimi_argv cwd])
             (console w ++ [banner_notice; Fmt prefix e; warning_notice])).
Proof.
  rewrite configure_session_hook_unfold, get_memory_protocol_cases.
  unfold next_child. cbn.
  destruct (children w (length (runs w))) as [status out err|e]; cbn.
  - destruct (status =? 0); [done|]. intros _. do 2 eexists. cbn.
    by rewrite <- !app_assoc.
  - intros ->. destruct (isinstance e C_CalledProcessError);
      do 2 eexists; cbn; by rewrite <- !app_assoc.
Qed.

(** X7: the hook formats whatever the instruction field holds with [str]:
    the default [''] stands in for an absent key only, so a field that is
    present with a value that is not a string ([None], [True], [False])
    comes back as the text of that value ("None", "True", "False"), a blank
    line and the protocol, and the field holds a string from then on. *)
Theorem hook_formats_current_value cwd (cfg : dict) w v T :
  cfg !! instruction_key = Some v ->
  T <> "" ->
  (get_memory_protocol cwd w).1 = Ok T ->
  exists (cfg' : dict) w',
    configure_session_hook cwd cfg w = (Ok cfg', w') /\
    cfg' !! instruction_key = Some (VStr (py_str v +:+ blank_line +:+ T)).
Proof.
  intros Hcur HT Hfetch.
  rewrite (configure_session_hook_text cwd cfg w T Hfetch HT).
  do 2 eexists. split; [reflexivity|].
  rewrite lookup_insert_eq. unfold dict_get. by rewrite Hcur.
Qed.

(** X8: nothing of the configuration record reaches the child or the
    console: the command lines run and the lines printed are the same
    whatever record the hook is given, also when an exception passes
    through. *)
Theorem hook_effects_ignore_config cwd (cfg1 cfg2 : dict) w :
  (configure_session_hook cwd cfg1 w).2 =
  (configure_session_hook cwd cfg2 w).2.
Proof.
  rewrite !configure_session_hook_unfold.
  destruct (get_memory_protocol cwd _) as [[protocol|e] w1]; [|reflexivity].
  destruct (truthy protocol); reflexivity.
Qed.

Lemma next_child_after_run ch rs argv c :
  next_child (World ch (rs ++ [argv]) c) = ch (S (length rs)).
Proof. unfold next_child. cbn. rewrite length_app. cbn. f_equal. lia. Qed.

(** X9: the hook is not idempotent.  Called a second time on the record it
    returned, it starts a second child and appends again: the field ends as
    the first value, a blank line, the first text, a blank line, the second
    text. *)
Theorem hook_twice_appends_twice cwd (cfg : dict) w T1 err1 T2 err2 :
  next_child w = Exits 0 T1 err1 ->
  children w (S (length (runs w))) = Exits 0 T2 err2 ->
  T1 <> "" ->
  T2 <> "" ->
  exists (cfg'' : dict) w'',
    (cfg' ← configure_session_hook cwd cfg;
     configure_session_hook cwd cfg') w = (Ok cfg'', w'') /\
    cfg'' !! instruction_key =
      Some (VStr (py_str (dict_get cfg instruction_key (VStr ""))
                  +:+ blank_line +:+ T1 +:+ blank_line +:+ T2)) /\
    runs w'' = runs w ++ [mimi_argv cwd; mimi_argv cwd].
Proof.
  intros Hfirst Hsecond HT1 HT2. unfold mbind, M_bind.
  rewrite (configure_session_hook_exit_zero cwd cfg w T1 err1 Hfirst HT1).
  rewrite (configure_session_hook_exit_zero cwd _ _ T2 err2);
    [|by rewrite next_child_after_run|done].
  do 2 eexists. split; [reflexivity|]. cbn [runs]. split.
  - rewrite lookup_insert_eq. unfold dict_get at 1.
    rewrite lookup_insert_eq. cbn [py_str].
    by rewrite !string_app_assoc.
  - by rewrite <- app_assoc.
Qed.

(** X10: a failed call leaves nothing behind in the record: when the first
    call meets a failing child and the next call a child that exits with
    status zero and a text, the record after both calls is the one a single
    successful call gives. *)
Theorem hook_retry_after_failure cwd (cfg : dict) w T err :
  process_failure (next_child w) = true ->
  children w (S (length (runs w))) = Exits 0 T err ->
  T <> "" ->
  exists w'',
    (cfg' ← configure_session_hook cwd cfg;
     configure_session_hook cwd cfg') w =
    (Ok (<[instruction_key :=
             VStr (py_str (dict_get cfg instruction_key (VStr ""))
                   +:+ blank_line +:+ T)]> cfg), w'') /\
    runs w'' = runs w ++ [mimi_argv cwd; mimi_argv cwd].
Proof.
  intros Hfirst Hsecond HT. unfold mbind, M_bind.
  destruct (configure_session_hook_failure cwd cfg w Hfirst)
    as (prefix & e & ->).
  rewrite (configure_session_hook_exit_zero cwd _ _ T err);
    [|by rewrite next_child_after_run|done].
  eexists. split; [reflexivity|]. cbn [runs]. by rewrite <- app_assoc.
Qed.

(** ** The script run directly *)

Lemma gemini_config_instruction :
  gemini_config !! instruction_key = Some (VStr sample_instruction).
Proof. reflexivity. Qed.

(** The script, around its call of the hook. *)
Lemma main_unfold cwd w :
  main cwd w =
  match configure_session_hook cwd gemini_config
          (World (children w) (runs w)
                 (console w ++ [before_banner; Lit sample_instruction])) with
  | (Ok cfg', w1) =>
      match cfg' !! instruction_key with
      | Some shown =>
          (Ok tt, World (children w1) (runs w1)
                        (console w1 ++ [after_banner; Lit (py_str shown)]))
      | None =>
          (Raise (Raised C_KeyError instruction_key),
           World (children w1) (runs w1) (console w1 ++ [after_banner]))
      end
  | (Raise e, w1) => (Raise e, w1)
  end.
Proof.
  unfold main, mbind, M_bind, print, dict_getitem.
  change ({[ "model" := VStr "gemini-2.0-flash";
             "system_instruction" := VStr "You are a helpful AI assistant." ]})
    with gemini_config.
  change "system_instruction" with instruction_key.
  rewrite gemini_config_instruction. cbn [children runs console py_str].
  rewrite <- app_assoc. cbn [app].
  destruct (configure_session_hook cwd gemini_config _) as [[cfg'|e] w1];
    [|reflexivity].
  cbn [children runs console].
  destruct (cfg' !! instruction_key); [|reflexivity].
  cbn [children runs console]. by rewrite <- app_assoc.
Qed.

(** X11: run directly when the child exits with status zero and a text,
    the script ends normally and prints, in this order: its first banner,
    the sample instruction, the two notices of the hook, its second banner
    (which starts with an empty line), and the instruction followed by a
    blank line and the text. *)
Theorem main_shows_injected_instruction cwd w T err :
  next_child w = Exits 0 T err ->
  T <> "" ->
  main cwd w =
    (Ok tt,
     World (children w) (runs w ++ [mimi_argv cwd])
           (console w ++
            [before_banner; Lit sample_instruction;
             banner_notice; success_notice;
             after_banner;
             Lit (sample_instruction +:+ blank_line +:+ T)])).
Proof.
  intros Hchild HT. rewrite main_unfold.
  rewrite (configure_session_hook_exit_zero cwd _ _ T err); [|done|done].
  rewrite lookup_insert_eq. cbn [children runs console py_str].
  unfold dict_get. rewrite gemini_config_instruction. cbn [py_str].
  by rewrite <- !app_assoc.
Qed.

(** X12: run directly when the child fails (non-zero exit status or an
    execution error), the script still ends normally, raising nothing: it
    prints the error line of the Fetcher and the warning of the hook
    between its banners, and shows the sample instruction unchanged. *)
Theorem main_survives_failure cwd w :
  process_failure (next_child w) = true ->
  exists prefix e,
    main cwd w =
      (Ok tt,
       World (children w) (runs w ++ [mimi_argv cwd])
             (console w ++
              [before_banner; Lit sample_instruction;
               banner_notice; Fmt prefix e; warning_notice;
               after_banner; Lit sample_instruction])).
Proof.
  intros Hchild. rewrite main_unfold.
  destruct (configure_session_hook_failure cwd gemini_config
              (World (children w) (runs w)
                 (console w ++ [before_banner; Lit sample_instruction])))
    as (prefix & e & ->); [done|].
  exists prefix, e. rewrite gemini_config_instruction.
  cbn [children runs console py_str]. by rewrite <- !app_assoc.
Qed.


(** X13: run directly, the script never ends on an exception, whatever the
    external process does: the hook never takes the 'system_instruction'
    key away, so the lookup that follows it cannot raise [KeyError], and
    exactly one child is started. *)
Theorem main_never_raises cwd w :
  process_behaviour (next_child w) = true ->
  exists w',
    main cwd w = (Ok tt, w') /\
    runs w' = runs w ++ [mimi_argv cwd].
Proof.
  intros Hchild. rewrite main_unfold.
  set (w1 := World (children w) (runs w)
               (console w ++ [before_banner; Lit sample_instruction])).
  destruct (get_memory_protocol_returns cwd w1 Hchild) as [T Hfetch].
  destruct (decide (T = "")) as [->|HT].
  - destruct (configure_session_hook_empty cwd gemini_config w1 Hfetch)
      as [mid ->].
    rewrite gemini_config_instruction. by eexists.
  - rewrite (configure_session_hook_text cwd gemini_config w1 T Hfetch HT).
    rewrite lookup_insert_eq. by eexists.
Qed.

(** ** The properties beyond the claims at concrete inputs *)

Lemma fetcher_reports_exit_status_witness :
  get_memory_protocol "/srv/app"
    (fresh_world (Exits 2 "partial text" "mimi: store locked")) =
  (Ok "",
   World (fun _ => Exits 2 "partial text" "mimi: store locked")
         ([] ++ [mimi_argv "/srv/app"])
         ([] ++
          [Fmt "Error retrieving memory protocol: "
               (CalledProcessError 2 (mimi_argv "/srv/app")
                  "partial text" "mimi: store locked")])).
Proof.
  apply (fetcher_reports_exit_status "/srv/app"
           (fresh_world (Exits 2 "partial text" "mimi: store locked"))
           2 "partial text" "mimi: store locked");
    [reflexivity | discriminate].
Defined.

Lemma fetcher_reports_unexpected_error_witness :
  get_memory_protocol "/srv/app"
    (fresh_world (Fails (Raised C_FileNotFoundError "No such file"))) =
  (Ok "",
   World (fun _ => Fails (Raised C_FileNotFoundError "No such file"))
         ([] ++ [mimi_argv "/srv/app"])
         ([] ++ [Fmt "Unexpected error: "
                     (Raised C_FileNotFoundError "No such file")])).
Proof.
  apply (fetcher_reports_unexpected_error "/srv/app"
           (fresh_world (Fails (Raised C_FileNotFoundError "No such file")))
           (Raised C_FileNotFoundError "No such file"));
    vm_compute; reflexivity.
Defined.

Lemma hook_lets_base_exception_through_witness :
  configure_session_hook "/srv/app" gemini_config
    (fresh_world (Fails (Raised C_KeyboardInterrupt ""))) =
  (Raise (Raised C_KeyboardInterrupt ""),
   World (fun _ => Fails (Raised C_KeyboardInterrupt ""))
         ([] ++ [mimi_argv "/srv/app"]) ([] ++ [banner_notice])).
Proof.
  apply (hook_lets_base_exception_through "/srv/app" gemini_config
           (fresh_world (Fails (Raised C_KeyboardInterrupt "")))
           (Raised C_KeyboardInterrupt ""));
    vm_compute; reflexivity.
Defined.

Lemma hook_empty_output_is_failure_witness :
  configure_session_hook "/srv/app" gemini_config
    (fresh_world (Exits 0 "" "")) =
  (Ok gemini_config,
   World (fun _ => Exits 0 "" "") ([] ++ [mimi_argv "/srv/app"])
         ([] ++ [banner_notice; warning_notice])).
Proof.
  apply (hook_empty_output_is_failure "/srv/app" gemini_config
           (fresh_world (Exits 0 "" "")) "").
  reflexivity.
Defined.

Lemma hook_formats_current_value_witness :
  exists (cfg' : dict) w',
    configure_session_hook "/srv/app" {[ instruction_key := VNone ]}
      (fresh_world (Exits 0 "Store what you learn." "")) = (Ok cfg', w') /\
    cfg' !! instruction_key =
      Some (VStr ("None" +:+ blank_line +:+ "Store what you learn.")).
Proof.
  apply (hook_formats_current_value "/srv/app" {[ instruction_key := VNone ]}
           (fresh_world (Exits 0 "Store what you learn." ""))
           VNone "Store what you learn.");
    [vm_compute; reflexivity | discriminate | reflexivity].
Defined.

Lemma hook_twice_appends_twice_witness :
  exists (cfg'' : dict) w'',
    (cfg' ← configure_session_hook "/srv/app" gemini_config;
     configure_session_hook "/srv/app" cfg')
      (scripted_world [Exits 0 "First." ""] (Exits 0 "Second." "")) =
      (Ok cfg'', w'') /\
    cfg'' !! instruction_key =
      Some (VStr (py_str (dict_get gemini_config instruction_key (VStr ""))
                  +:+ blank_line +:+ "First." +:+ blank_line +:+ "Second.")) /\
    runs w'' = [] ++ [mimi_argv "/srv/app"; mimi_argv "/srv/app"].
Proof.
  apply (hook_twice_appends_twice "/srv/app" gemini_config
           (scripted_world [Exits 0 "First." ""] (Exits 0 "Second." ""))
           "First." "" "Second." "");
    [reflexivity | reflexivity | discriminate | discriminate].
Defined.

Lemma hook_retry_after_failure_witness :
  exists w'',
    (cfg' ← configure_session_hook "/srv/app" gemini_config;
     configure_session_hook "/srv/app" cfg')
      (scripted_world [Exits 1 "" "mimi: store locked"]
                      (Exits 0 "Store what you learn." "")) =
    (Ok (<[instruction_key :=
             VStr (py_str (dict_get gemini_config instruction_key (VStr ""))
                   +:+ blank_line +:+ "Store what you learn.")]>
           gemini_config), w'') /\
    runs w'' = [] ++ [mimi_argv "/srv/app"; mimi_argv "/srv/app"].
Proof.
  apply (hook_retry_after_failure "/srv/app" gemini_config
           (scripted_world [Exits 1 "" "mimi: store locked"]
                           (Exits 0 "Store what you learn." ""))
           "Store what you learn." "");
    [reflexivity | reflexivity | discriminate].
Defined.

Lemma main_shows_injected_instruction_witness :
  main "/srv/app" (fresh_world (Exits 0 "Store what you learn." "")) =
  (Ok tt,
   World (fun _ => Exits 0 "Store what you learn." "")
         ([] ++ [mimi_argv "/srv/app"])
         ([] ++
          [before_banner; Lit sample_instruction;
           banner_notice; success_notice;
           after_banner;
           Lit (sample_instruction +:+ blank_line +:+
                "Store what you learn.")])).
Proof.
  apply (main_shows_injected_instruction "/srv/app"
           (fresh_world (Exits 0 "Store what you learn." ""))
           "Store what you learn." "");
    [reflexivity | discriminate].
Defined.

Lemma main_survives_failure_witness :
  exists prefix e,
    main "/srv/app"
      (fresh_world (Fails (Raised C_PermissionError "Permission denied"))) =
      (Ok tt,
       World (fun _ => Fails (Raised C_PermissionError "Permission denied"))
             ([] ++ [mimi_argv "/srv/app"])
             ([] ++
              [before_banner; Lit sample_instruction;
               banner_notice; Fmt prefix e; warning_notice;
               after_banner; Lit sample_instruction])).
Proof.
  apply (main_survives_failure "/srv/app"
           (fresh_world (Fails (Raised C_PermissionError
                                  "Permission denied")))).
  vm_compute. reflexivity.
Defined.

Lemma main_never_raises_witness :
  exists w',
    main "/srv/app" (fresh_world (Exits 0 "" "")) = (Ok tt, w') /\
    runs w' = [] ++ [mimi_argv "/srv/app"].
Proof.
  apply (main_never_raises "/srv/app" (fresh_world (Exits 0 "" ""))).
  reflexivity.
Defined.
